(** * hello.py: an MPI "hello world" probe

    The script under verification (src/hello.py):
<<
    from mpi4py import MPI
    comm = MPI.COMM_WORLD
    size = comm.Get_size()
    rank = comm.Get_rank()
    name = MPI.Get_processor_name()
    print("Hello, World! I am process %d of %d on %s.\n" % (rank, size, name))
>>
    Each top-level statement is embedded as a state transformer over a
    [world]: the module globals (a Python dict), the text written to standard
    output, the answers of the MPI runtime of this process, the log of the
    runtime queries made so far and the rest of the operating-system
    environment.  Uncaught exceptions are an explicit [Raise] result. *)

From Stdlib Require Import ZArith Ascii String.
From Stdlib Require Import DecimalString DecimalPos DecimalZ Permutation.
From stdpp Require Import gmap strings list fin_maps.

Local Open Scope Z_scope.

(** ** Python values and exceptions *)

(** The values the script handles: integers, strings, the [MPI] module object
    and the communicator object [MPI.COMM_WORLD]. *)
Inductive pyval : Type :=
  | PInt (z : Z)
  | PStr (s : string)
  | PModuleMPI
  | PComm.

Inductive exn : Type :=
  | ImportError
  | NameError
  | AttributeError
  | TypeError
  | ValueError
  | MPIException.

Inductive result (A : Type) : Type :=
  | Ok (a : A)
  | Raise (e : exn).
Arguments Ok {A} a.
Arguments Raise {A} e.

Definition result_map {A B : Type} (f : A → B) (r : result A) : result B :=
  match r with
  | Ok a => Ok (f a)
  | Raise e => Raise e
  end.

(** ** Text *)

(** The line feed, written [\n] in the Python source. *)
Definition LF : ascii := Ascii.ascii_of_nat 10.
Definition newline : string := String LF "".

(** [str(z)] and [%d] on a Python int: an optional minus sign and the decimal
    digits, no leading zero. *)
Definition str_of_int (z : Z) : string := NilZero.string_of_int (Z.to_int z).

(** [str(v)] as [%s] uses it.  The default text of the two runtime objects
    carries a memory address in CPython; it is left out here, the script
    never prints them. *)
Definition py_str (v : pyval) : string :=
  match v with
  | PInt z => str_of_int z
  | PStr s => s
  | PModuleMPI => "<module 'mpi4py.MPI'>"
  | PComm => "<mpi4py.MPI.Intracomm object>"
  end.

(** [fmt % args] for a tuple [args], for the conversions [%d], [%s] and [%%]
    without flags, width or precision.  The format is scanned left to right;
    each conversion consumes one argument; [%d] wants a number; a format that
    ends in [%] or names another conversion is a [ValueError]; too few
    arguments, or arguments left over, are a [TypeError]. *)
Fixpoint py_format (fmt : string) (args : list pyval) : result string :=
  match fmt with
  | EmptyString =>
      match args with
      | [] => Ok ""
      | _ :: _ => Raise TypeError
      end
  | String c rest =>
      if Ascii.eqb c "%"%char then
        match rest with
        | EmptyString => Raise ValueError
        | String k rest' =>
            if Ascii.eqb k "%"%char then
              result_map (String "%"%char) (py_format rest' args)
            else if Ascii.eqb k "d"%char then
              match args with
              | PInt z :: args' =>
                  result_map (String.append (str_of_int z)) (py_format rest' args')
              | _ => Raise TypeError
              end
            else if Ascii.eqb k "s"%char then
              match args with
              | v :: args' =>
                  result_map (String.append (py_str v)) (py_format rest' args')
              | [] => Raise TypeError
              end
            else Raise ValueError
        end
      else result_map (String c) (py_format rest args)
  end.

(** The format string of the script; it ends in a line feed of its own. *)
Definition greeting_format : string :=
  "Hello, World! I am process %d of %d on %s." +:+ newline.

(** ** The world of one process *)

(** What the MPI runtime of this process answers. *)
Record mpi_context : Type := MpiContext {
  ctx_size : Z;
  ctx_rank : Z;
  ctx_name : string
}.

(** A query of the runtime, with the value it returned. *)
Inductive api_call : Type :=
  | Call_Get_size (ret : Z)
  | Call_Get_rank (ret : Z)
  | Call_Get_processor_name (ret : string).

(** The parts of the environment the script has no statement for. *)
Record os_state : Type := OsState {
  os_files : gmap string string;
  os_environ : gmap string string;
  os_argv : list string;
  os_sent : list string
}.

Record world : Type := World {
  mpi_env : option mpi_context;
  globals : gmap string pyval;
  stdout : string;
  api_calls : list api_call;
  os : os_state
}.

Definition set_global (x : string) (v : pyval) (w : world) : world :=
  {| mpi_env := mpi_env w; globals := <[x := v]> (globals w);
     stdout := stdout w; api_calls := api_calls w; os := os w |}.

Definition write_stdout (s : string) (w : world) : world :=
  {| mpi_env := mpi_env w; globals := globals w;
     stdout := stdout w +:+ s; api_calls := api_calls w; os := os w |}.

Definition log_call (c : api_call) (w : world) : world :=
  {| mpi_env := mpi_env w; globals := globals w;
     stdout := stdout w; api_calls := api_calls w ++ [c]; os := os w |}.


(** ** State and exception monad *)

Definition M (A : Type) : Type := world → result A * world.

Definition ret {A : Type} (a : A) : M A := λ w, (Ok a, w).

Definition raise {A : Type} (e : exn) : M A := λ w, (Raise e, w).

Definition bind {A B : Type} (m : M A) (f : A → M B) : M B :=
  λ w, match m w with
       | (Ok a, w') => f a w'
       | (Raise e, w') => (Raise e, w')
       end.

Notation "'let*' x ':=' m 'in' k" := (bind m (λ x, k))
  (at level 10, x name, m at level 100, k at level 200).

Definition lift {A : Type} (r : result A) : M A := λ w, (r, w).

(** ** Primitive operations *)

(** Reading a global name; an unbound name is a [NameError]. *)
Definition load_name (x : string) : M pyval :=
  λ w, match globals w !! x with
       | Some v => (Ok v, w)
       | None => (Raise NameError, w)
       end.

(** Binding a global name. *)
Definition store_name (x : string) (v : pyval) : M unit :=
  λ w, (Ok tt, set_global x v w).

(** [from mpi4py import MPI]: importing the module initialises the runtime;
    without a context the import raises. *)
Definition import_MPI : M pyval :=
  λ w, match mpi_env w with
       | Some _ => (Ok PModuleMPI, w)
       | None => (Raise ImportError, w)
       end.

(** [m.COMM_WORLD] *)
Definition attr_COMM_WORLD (m : pyval) : M pyval :=
  match m with
  | PModuleMPI => ret PComm
  | _ => raise AttributeError
  end.

(** Asking the runtime, and logging the query with its answer. *)
Definition query {A : Type} (get : mpi_context → A) (tag : A → api_call)
    (inj : A → pyval) : M pyval :=
  λ w, match mpi_env w with
       | Some c => (Ok (inj (get c)), log_call (tag (get c)) w)
       | None => (Raise MPIException, w)
       end.

(** [c.Get_size()] *)
Definition Get_size (c : pyval) : M pyval :=
  match c with
  | PComm => query ctx_size Call_Get_size PInt
  | _ => raise AttributeError
  end.

(** [c.Get_rank()] *)
Definition Get_rank (c : pyval) : M pyval :=
  match c with
  | PComm => query ctx_rank Call_Get_rank PInt
  | _ => raise AttributeError
  end.

(** [m.Get_processor_name()] *)
Definition Get_processor_name (m : pyval) : M pyval :=
  match m with
  | PModuleMPI => query ctx_name Call_Get_processor_name PStr
  | _ => raise AttributeError
  end.

(** [print(v)]: the text of [v], then the line terminator of [print]. *)
Definition print (v : pyval) : M unit :=
  λ w, (Ok tt, write_stdout (py_str v +:+ newline) w).

(** [fmt % (a, b, c)] *)
Definition format_op (fmt : string) (args : list pyval) : M pyval :=
  lift (result_map PStr (py_format fmt args)).

(** ** The script, statement by statement *)

(** [from mpi4py import MPI] *)
Definition stmt_import : M unit :=
  let* m := import_MPI in store_name "MPI" m.

(** [comm = MPI.COMM_WORLD] *)
Definition stmt_comm : M unit :=
  let* m := load_name "MPI" in let* c := attr_COMM_WORLD m in store_name "comm" c.

(** [size = comm.Get_size()] *)
Definition stmt_size : M unit :=
  let* c := load_name "comm" in let* v := Get_size c in store_name "size" v.

(** [rank = comm.Get_rank()] *)
Definition stmt_rank : M unit :=
  let* c := load_name "comm" in let* v := Get_rank c in store_name "rank" v.

(** [name = MPI.Get_processor_name()] *)
Definition stmt_name : M unit :=
  let* m := load_name "MPI" in let* v := Get_processor_name m in store_name "name" v.

(** [print("Hello, World! I am process %d of %d on %s.\n" % (rank, size, name))] *)
Definition stmt_print : M unit :=
  let* r := load_name "rank" in
  let* s := load_name "size" in
  let* n := load_name "name" in
  let* t := format_op greeting_format [r; s; n] in
  print t.

Definition hello : list (M unit) :=
  [stmt_import; stmt_comm; stmt_size; stmt_rank; stmt_name; stmt_print].

(** Running statements in order; the first exception stops the script. *)
Fixpoint run_script (p : list (M unit)) : M unit :=
  match p with
  | [] => ret tt
  | s :: p' => let* _ := s in run_script p'
  end.

(** The whole program, and the world after its first [k] statements. *)
Definition main : M unit := run_script hello.

Definition run_prefix (k : nat) : M unit := run_script (take k hello).

(** The exit status of the interpreter: 0 when the script ran to its end, 1
    when an exception was left uncaught. *)
Definition exit_status {A : Type} (r : result A) : Z :=
  match r with
  | Ok _ => 0
  | Raise _ => 1
  end.

(** A fresh interpreter: no globals bound, nothing written, nothing asked. *)
Definition initial_world (env : option mpi_context) (o : os_state) : world :=
  {| mpi_env := env; globals := ∅; stdout := ""; api_calls := []; os := o |}.

Definition empty_os : os_state :=
  {| os_files := ∅; os_environ := ∅; os_argv := []; os_sent := [] |}.

(** ** Reading standard output back *)

(** The greeting line as the specification words it:
    [Hello, World! I am process R of S on H.] *)
Definition greeting_line (r s : Z) (h : string) : string :=
  "Hello, World! I am process " +:+ str_of_int r +:+ " of " +:+ str_of_int s
  +:+ " on " +:+ h +:+ ".".

(** Whether a text holds a line feed. *)
Fixpoint has_LF (s : string) : bool :=
  match s with
  | EmptyString => false
  | String c s' => Ascii.eqb c LF || has_LF s'
  end.

(** The lines of a text: every line feed ends a line; text after the last
    line feed, if any, is a last line. *)
Fixpoint lines (s : string) : list string :=
  match s with
  | EmptyString => []
  | String c s' =>
      if Ascii.eqb c LF then "" :: lines s'
      else match lines s' with
           | [] => [String c ""]
           | l :: ls => String c l :: ls
           end
  end.

Fixpoint strip_prefix (p s : string) : option string :=
  match p with
  | EmptyString => Some s
  | String a p' =>
      match s with
      | EmptyString => None
      | String b s' => if Ascii.eqb a b then strip_prefix p' s' else None
      end
  end.

Fixpoint strip_suffix (suf s : string) : option string :=
  if String.eqb s suf then Some ""
  else match s with
       | EmptyString => None
       | String c s' => option_map (String c) (strip_suffix suf s')
       end.

(** A sign or a decimal digit. *)
Definition is_int_char (c : ascii) : bool :=
  Ascii.eqb c "-"%char
  || (Nat.leb 48 (nat_of_ascii c) && Nat.leb (nat_of_ascii c) 57).

Fixpoint all_int_chars (s : string) : bool :=
  match s with
  | EmptyString => true
  | String c s' => is_int_char c && all_int_chars s'
  end.

(** The longest prefix of sign and digit characters, and the rest. *)
Fixpoint span_int (s : string) : string * string :=
  match s with
  | EmptyString => ("", "")
  | String c s' =>
      if is_int_char c then (String c (span_int s').1, (span_int s').2)
      else ("", s)
  end.

Definition read_int (s : string) : option (Z * string) :=
  match NilZero.int_of_string (span_int s).1 with
  | Some d => Some (Z.of_int d, (span_int s).2)
  | None => None
  end.

(** Reading a greeting line back into the rank, the size and the host name it
    reports; [None] for any other line. *)
Definition parse_greeting (l : string) : option (Z * Z * string) :=
  match strip_prefix "Hello, World! I am process " l with
  | None => None
  | Some l1 =>
      match read_int l1 with
      | None => None
      | Some (r, l2) =>
          match strip_prefix " of " l2 with
          | None => None
          | Some l3 =>
              match read_int l3 with
              | None => None
              | Some (s, l4) =>
                  match strip_prefix " on " l4 with
                  | None => None
                  | Some l5 =>
                      match strip_suffix "." l5 with
                      | None => None
                      | Some h => Some (r, s, h)
                      end
                  end
              end
          end
      end
  end.

(** The greetings found on the lines of a text, in order. *)
Definition printed (out : string) : list (Z * Z * string) :=
  omap parse_greeting (lines out).

Definition printed_rank (g : Z * Z * string) : Z := g.1.1.
Definition printed_size (g : Z * Z * string) : Z := g.1.2.

(** ** A launch of several processes *)

(** The launcher and the runtime are outside the repository.  Their contract:
    a launch of [n] processes starts [n] fresh interpreters; the one with
    index [r], for [r] from 0 to [n - 1], is told rank [r] and size [n], and
    the name of the host it was placed on. *)
Definition process_world (n : nat) (host : nat → string) (o : nat → os_state)
    (r : nat) : world :=
  initial_world (Some (MpiContext (Z.of_nat n) (Z.of_nat r) (host r))) (o r).

(** What a process has written when it ends. *)
Definition output_of (w : world) : string := stdout (main w).2.

(** The shared output stream of a launch when the processes' outputs reach it
    in the given order. *)
Definition launch_output (n : nat) (host : nat → string) (o : nat → os_state)
    (order : list nat) : string :=
  foldr String.append "" (map (λ r, output_of (process_world n host o r)) order).

(** ** The effect of each statement *)

(** The change statement number [i] of the script makes to the world when the
    runtime holds context [c]. *)
Definition stmt_effect (c : mpi_context) (i : nat) (w : world) : world :=
  match i with
  | 0%nat => set_global "MPI" PModuleMPI w
  | 1%nat => set_global "comm" PComm w
  | 2%nat => set_global "size" (PInt (ctx_size c))
               (log_call (Call_Get_size (ctx_size c)) w)
  | 3%nat => set_global "rank" (PInt (ctx_rank c))
               (log_call (Call_Get_rank (ctx_rank c)) w)
  | 4%nat => set_global "name" (PStr (ctx_name c))
               (log_call (Call_Get_processor_name (ctx_name c)) w)
  | 5%nat => write_stdout
               (greeting_line (ctx_rank c) (ctx_size c) (ctx_name c)
                +:+ newline +:+ newline) w
  | _ => w
  end.

Fixpoint world_after (c : mpi_context) (k : nat) (w : world) : world :=
  match k with
  | O => w
  | S k' => stmt_effect c k' (world_after c k' w)
  end.

(** ** Examples *)

Example str_of_int_0 : str_of_int 0 = "0".
Proof. reflexivity. Qed.

Example str_of_int_neg : str_of_int (-12) = "-12".
Proof. reflexivity. Qed.

Example format_too_few : py_format "%d of %d" [PInt 1] = Raise TypeError.
Proof. reflexivity. Qed.

Example format_wrong_type : py_format "%d" [PStr "a"] = Raise TypeError.
Proof. reflexivity. Qed.

Example run_example :
  stdout (main (initial_world (Some (MpiContext 4 2 "node7")) empty_os)).2
  = "Hello, World! I am process 2 of 4 on node7." +:+ newline +:+ newline.
Proof. vm_compute. reflexivity. Qed.

Example parse_example :
  printed ("Hello, World! I am process 2 of 4 on node7." +:+ newline +:+ newline)
  = [(2, 4, "node7")].
Proof. vm_compute. reflexivity. Qed.

Example no_context_example :
  main (initial_world None empty_os)
  = (Raise ImportError, initial_world None empty_os).
Proof. reflexivity. Qed.

(** ** Text lemmas *)

Lemma append_cons (c : ascii) (s t : string) :
  String c s +:+ t = String c (s +:+ t).
Proof. reflexivity. Qed.

Lemma append_nil_l (t : string) : "" +:+ t = t.
Proof. reflexivity. Qed.

Lemma append_nil_r (s : string) : s +:+ "" = s.
Proof. induction s as [|c s IH]; [done|]. by rewrite append_cons, IH. Qed.

Lemma append_assoc (s t u : string) : (s +:+ t) +:+ u = s +:+ t +:+ u.
Proof.
  induction s as [|c s IH]; [done|].
  by rewrite !append_cons, IH.
Qed.

Lemma length_append (s t : string) :
  String.length (s +:+ t) = (String.length s + String.length t)%nat.
Proof.
  induction s as [|c s IH]; [done|].
  rewrite append_cons. simpl. by rewrite IH.
Qed.

(** The text [%]-formatting produces for two integers and a string. *)
Lemma py_format_greeting (r s : Z) (h : string) :
  py_format greeting_format [PInt r; PInt s; PStr h]
  = Ok (greeting_line r s h +:+ newline).
Proof.
  unfold greeting_line. rewrite !append_assoc. reflexivity.
Qed.

(** ** Symbolic execution of the script *)

Lemma bind_Ok {A B : Type} (m : M A) (f : A → M B) (w w' : world) (a : A) :
  m w = (Ok a, w') → bind m f w = f a w'.
Proof. intros H. unfold bind. by rewrite H. Qed.

Lemma bind_Raise {A B : Type} (m : M A) (f : A → M B) (w w' : world) (e : exn) :
  m w = (Raise e, w') → bind m f w = (Raise e, w').
Proof. intros H. unfold bind. by rewrite H. Qed.

Lemma load_name_bound (x : string) (v : pyval) (w : world) :
  globals w !! x = Some v → load_name x w = (Ok v, w).
Proof. intros H. unfold load_name. by rewrite H. Qed.

Lemma query_context {A : Type} (get : mpi_context → A) (tag : A → api_call)
    (inj : A → pyval) (c : mpi_context) (w : world) :
  mpi_env w = Some c →
  query get tag inj w = (Ok (inj (get c)), log_call (tag (get c)) w).
Proof. intros H. unfold query. by rewrite H. Qed.

Lemma run_script_snoc (p : list (M unit)) (s : M unit) (w : world) :
  run_script (p ++ [s]) w = bind (run_script p) (λ _, s) w.
Proof.
  revert w. induction p as [|s' p IH]; intros w; simpl.
  - unfold bind, ret. simpl. by destruct (s w) as [[[]|e] w'].
  - unfold bind in *. destruct (s' w) as [[[]|e] w']; [apply IH|done].
Qed.

Lemma run_prefix_S (k : nat) (s : M unit) (w : world) :
  hello !! k = Some s →
  run_prefix (S k) w = bind (run_prefix k) (λ _, s) w.
Proof.
  intros H. unfold run_prefix. rewrite (take_S_r _ _ _ H).
  apply run_script_snoc.
Qed.

Lemma run_prefix_ge (k : nat) : (6 ≤ k)%nat → run_prefix k = main.
Proof.
  intros H. unfold run_prefix, main. by rewrite take_ge.
Qed.

Lemma world_after_ge (c : mpi_context) (k : nat) (w : world) :
  (6 ≤ k)%nat → world_after c k w = world_after c 6 w.
Proof.
  induction 1 as [|k Hk IH]; [done|].
  simpl. rewrite IH.
  do 6 (destruct k as [|k]; [lia|]). done.
Qed.

(** A global bound by an earlier statement is left alone by a later one. *)
Ltac later_statement k IH :=
  do 6 (destruct k as [|k];
        [first [lia | simpl; rewrite lookup_insert_ne by done; exact IH
               | exact IH]|]);
  exact IH.

Section with_context.
Context (c : mpi_context).

Lemma mpi_env_world_after (k : nat) (w : world) :
  mpi_env (world_after c k w) = mpi_env w.
Proof.
  induction k as [|k IH]; [done|]. simpl. rewrite <- IH.
  do 6 (destruct k as [|k]; [done|]). done.
Qed.


Lemma stmt_import_run (w : world) :
  mpi_env w = Some c → stmt_import w = (Ok tt, stmt_effect c 0 w).
Proof. intros H. unfold stmt_import, bind, import_MPI. by rewrite H. Qed.

Lemma stmt_comm_run (w : world) :
  globals w !! "MPI" = Some PModuleMPI →
  stmt_comm w = (Ok tt, stmt_effect c 1 w).
Proof.
  intros H. unfold stmt_comm.
  by rewrite (bind_Ok _ _ _ _ _ (load_name_bound _ _ _ H)).
Qed.

Lemma stmt_size_run (w : world) :
  mpi_env w = Some c → globals w !! "comm" = Some PComm →
  stmt_size w = (Ok tt, stmt_effect c 2 w).
Proof.
  intros Hc H. unfold stmt_size.
  rewrite (bind_Ok _ _ _ _ _ (load_name_bound _ _ _ H)).
  unfold Get_size.
  by rewrite (bind_Ok _ _ _ _ _ (query_context _ _ _ _ _ Hc)).
Qed.

Lemma stmt_rank_run (w : world) :
  mpi_env w = Some c → globals w !! "comm" = Some PComm →
  stmt_rank w = (Ok tt, stmt_effect c 3 w).
Proof.
  intros Hc H. unfold stmt_rank.
  rewrite (bind_Ok _ _ _ _ _ (load_name_bound _ _ _ H)).
  unfold Get_rank.
  by rewrite (bind_Ok _ _ _ _ _ (query_context _ _ _ _ _ Hc)).
Qed.

Lemma stmt_name_run (w : world) :
  mpi_env w = Some c → globals w !! "MPI" = Some PModuleMPI →
  stmt_name w = (Ok tt, stmt_effect c 4 w).
Proof.
  intros Hc H. unfold stmt_name.
  rewrite (bind_Ok _ _ _ _ _ (load_name_bound _ _ _ H)).
  unfold Get_processor_name.
  by rewrite (bind_Ok _ _ _ _ _ (query_context _ _ _ _ _ Hc)).
Qed.

Lemma stmt_print_run (w : world) :
  globals w !! "rank" = Some (PInt (ctx_rank c)) →
  globals w !! "size" = Some (PInt (ctx_size c)) →
  globals w !! "name" = Some (PStr (ctx_name c)) →
  stmt_print w = (Ok tt, stmt_effect c 5 w).
Proof.
  intros Hr Hs Hn. unfold stmt_print.
  rewrite (bind_Ok _ _ _ _ _ (load_name_bound _ _ _ Hr)).
  rewrite (bind_Ok _ _ _ _ _ (load_name_bound _ _ _ Hs)).
  rewrite (bind_Ok _ _ _ _ _ (load_name_bound _ _ _ Hn)).
  unfold format_op, lift, bind. rewrite py_format_greeting. simpl.
  unfold print, py_str. by rewrite !append_assoc.
Qed.

(** The globals the script has bound after its first [k] statements. *)
Lemma globals_after_MPI (k : nat) (w : world) :
  (1 ≤ k)%nat → globals (world_after c k w) !! "MPI" = Some PModuleMPI.
Proof.
  induction 1 as [|k Hk IH]; [apply lookup_insert_eq|].
  simpl. later_statement k IH.
Qed.

Lemma globals_after_comm (k : nat) (w : world) :
  (2 ≤ k)%nat → globals (world_after c k w) !! "comm" = Some PComm.
Proof.
  induction 1 as [|k Hk IH]; [apply lookup_insert_eq|].
  simpl. later_statement k IH.
Qed.

Lemma globals_after_size (k : nat) (w : world) :
  (3 ≤ k)%nat →
  globals (world_after c k w) !! "size" = Some (PInt (ctx_size c)).
Proof.
  induction 1 as [|k Hk IH]; [apply lookup_insert_eq|].
  simpl. later_statement k IH.
Qed.

Lemma globals_after_rank (k : nat) (w : world) :
  (4 ≤ k)%nat →
  globals (world_after c k w) !! "rank" = Some (PInt (ctx_rank c)).
Proof.
  induction 1 as [|k Hk IH]; [apply lookup_insert_eq|].
  simpl. later_statement k IH.
Qed.

Lemma globals_after_name (k : nat) (w : world) :
  (5 ≤ k)%nat →
  globals (world_after c k w) !! "name" = Some (PStr (ctx_name c)).
Proof.
  induction 1 as [|k Hk IH]; [apply lookup_insert_eq|].
  simpl. later_statement k IH.
Qed.

(** With a context, the first [k] statements run without an exception and
    leave the world [world_after c k w]. *)
Lemma run_prefix_context (k : nat) (w : world) :
  mpi_env w = Some c → run_prefix k w = (Ok tt, world_after c k w).
Proof.
  intros Hc.
  assert (Hle : ∀ k, (k ≤ 6)%nat → run_prefix k w = (Ok tt, world_after c k w)).
  { clear k. induction k as [|k IH]; intros Hk; [done|].
    assert (Hk' : (k ≤ 6)%nat) by lia. specialize (IH Hk').
    assert (He : mpi_env (world_after c k w) = Some c)
      by (by rewrite mpi_env_world_after).
    destruct k as [|[|[|[|[|[|k]]]]]]; [..|lia].
    - rewrite (run_prefix_S 0 stmt_import) by done.
      rewrite (bind_Ok _ _ _ _ _ IH). by apply stmt_import_run.
    - rewrite (run_prefix_S 1 stmt_comm) by done.
      rewrite (bind_Ok _ _ _ _ _ IH).
      apply stmt_comm_run, globals_after_MPI; lia.
    - rewrite (run_prefix_S 2 stmt_size) by done.
      rewrite (bind_Ok _ _ _ _ _ IH).
      apply stmt_size_run; [done|apply globals_after_comm; lia].
    - rewrite (run_prefix_S 3 stmt_rank) by done.
      rewrite (bind_Ok _ _ _ _ _ IH).
      apply stmt_rank_run; [done|apply globals_after_comm; lia].
    - rewrite (run_prefix_S 4 stmt_name) by done.
      rewrite (bind_Ok _ _ _ _ _ IH).
      apply stmt_name_run; [done|apply globals_after_MPI; lia].
    - rewrite (run_prefix_S 5 stmt_print) by done.
      rewrite (bind_Ok _ _ _ _ _ IH).
      apply stmt_print_run;
        [apply globals_after_rank|apply globals_after_size
        |apply globals_after_name]; lia. }
  destruct (decide (k ≤ 6)%nat) as [Hk|Hk]; [by apply Hle|].
  rewrite run_prefix_ge, world_after_ge by lia.
  rewrite <- (Hle 6%nat) by lia. done.
Qed.

Lemma main_context (w : world) :
  mpi_env w = Some c → main w = (Ok tt, world_after c 6 w).
Proof. intros Hc. by rewrite <- (run_prefix_context 6 w Hc). Qed.

End with_context.

(** Without a context the import raises and nothing else happens. *)
Lemma main_no_context (w : world) :
  mpi_env w = None → main w = (Raise ImportError, w).
Proof.
  intros H. unfold main, hello. simpl.
  apply bind_Raise. unfold stmt_import. apply bind_Raise.
  unfold import_MPI. by rewrite H.
Qed.

(** What the script has written and asked after its first [k] statements. *)
Lemma stdout_world_after (c : mpi_context) (k : nat) (w : world) :
  stdout (world_after c k w)
  = if decide (k < 6)%nat then stdout w
    else stdout w +:+ greeting_line (ctx_rank c) (ctx_size c) (ctx_name c)
         +:+ newline +:+ newline.
Proof.
  destruct (decide (k < 6)%nat) as [Hk|Hk].
  - do 6 (destruct k as [|k]; [done|]). lia.
  - by rewrite world_after_ge by lia.
Qed.

Lemma api_calls_world_after (c : mpi_context) (w : world) :
  api_calls (world_after c 6 w)
  = api_calls w ++ [Call_Get_size (ctx_size c); Call_Get_rank (ctx_rank c);
                    Call_Get_processor_name (ctx_name c)].
Proof. simpl. by rewrite <- !(assoc_L (++)). Qed.

(** ** Reading the output back *)

Lemma has_LF_append (s t : string) :
  has_LF (s +:+ t) = has_LF s || has_LF t.
Proof.
  induction s as [|a s IH]; [done|].
  rewrite append_cons. simpl. by rewrite IH, orb_assoc.
Qed.

Lemma is_int_char_not_LF (a : ascii) :
  is_int_char a = true → Ascii.eqb a LF = false.
Proof.
  intros H. destruct (Ascii.eqb_spec a LF) as [->|]; [|done].
  by vm_compute in H.
Qed.

Lemma all_int_chars_no_LF (s : string) :
  all_int_chars s = true → has_LF s = false.
Proof.
  induction s as [|a s IH]; [done|]. simpl.
  intros [Ha Hs]%andb_true_iff.
  by rewrite (is_int_char_not_LF a Ha), IH.
Qed.

Lemma string_of_uint_int_chars (d : Decimal.uint) :
  all_int_chars (NilEmpty.string_of_uint d) = true.
Proof. induction d; simpl; auto. Qed.

Lemma str_of_int_int_chars (z : Z) : all_int_chars (str_of_int z) = true.
Proof.
  unfold str_of_int.
  destruct z as [|p|p]; simpl; [done| |];
    destruct (Pos.to_uint p); simpl; auto using string_of_uint_int_chars.
Qed.

Lemma str_of_int_no_LF (z : Z) : has_LF (str_of_int z) = false.
Proof. apply all_int_chars_no_LF, str_of_int_int_chars. Qed.

Lemma greeting_line_no_LF (r s : Z) (h : string) :
  has_LF h = false → has_LF (greeting_line r s h) = false.
Proof.
  intros H. unfold greeting_line.
  rewrite !has_LF_append, !str_of_int_no_LF, H. reflexivity.
Qed.

Lemma lines_line (l rest : string) :
  has_LF l = false → lines (l +:+ newline +:+ rest) = l :: lines rest.
Proof.
  induction l as [|a l IH]; [done|].
  intros H. simpl in H. apply orb_false_iff in H as [Ha Hl].
  rewrite append_cons. cbn [lines]. by rewrite Ha, (IH Hl).
Qed.

Lemma strip_prefix_append (p s : string) : strip_prefix p (p +:+ s) = Some s.
Proof.
  induction p as [|a p IH]; [done|].
  rewrite append_cons. cbn [strip_prefix]. by rewrite Ascii.eqb_refl.
Qed.

Lemma strip_suffix_append (suf h : string) :
  strip_suffix suf (h +:+ suf) = Some h.
Proof.
  induction h as [|a h IH].
  - rewrite append_nil_l. destruct suf; simpl; by rewrite ?String.eqb_refl, ?Ascii.eqb_refl.
  - rewrite append_cons.
    assert (Hne : String.eqb (String a (h +:+ suf)) suf = false).
    { apply String.eqb_neq. intros Heq.
      apply (f_equal String.length) in Heq. simpl in Heq.
      rewrite length_append in Heq. lia. }
    cbn [strip_suffix]. rewrite Hne. fold strip_suffix. by rewrite IH.
Qed.

Lemma span_int_space (a rest : string) :
  all_int_chars a = true →
  span_int (a +:+ String " " rest) = (a, String " "%char rest).
Proof.
  induction a as [|x a IH]; [done|].
  intros H. simpl in H. apply andb_true_iff in H as [Hx Ha].
  rewrite append_cons. cbn [span_int]. by rewrite Hx, (IH Ha).
Qed.

(** Reading back the decimal text of an integer gives the integer. *)
Lemma int_of_string_str_of_int (z : Z) :
  NilZero.int_of_string (str_of_int z) = Some (Z.to_int z).
Proof.
  unfold str_of_int. apply NilZero.isi.
  - destruct z as [|p|p]; [done| |done].
    intros [= H]. by apply (Unsigned.to_uint_nonnil p).
  - destruct z as [|p|p]; [done|done|].
    intros [= H]. by apply (Unsigned.to_uint_nonnil p).
Qed.

Lemma read_int_space (z : Z) (rest : string) :
  read_int (str_of_int z +:+ String " " rest) = Some (z, String " "%char rest).
Proof.
  unfold read_int.
  rewrite (span_int_space _ _ (str_of_int_int_chars z)). simpl.
  by rewrite int_of_string_str_of_int, DecimalZ.of_to.
Qed.

(** The greeting line can be read back: it reports its rank, size and host. *)
Lemma parse_greeting_line (r s : Z) (h : string) :
  parse_greeting (greeting_line r s h) = Some (r, s, h).
Proof.
  unfold parse_greeting, greeting_line.
  rewrite strip_prefix_append.
  change (" of " +:+ ?x) with (String " " ("of " +:+ x)).
  rewrite read_int_space.
  change (String " " ("of " +:+ ?x)) with (" of " +:+ x).
  rewrite strip_prefix_append.
  change (" on " +:+ ?x) with (String " " ("on " +:+ x)).
  rewrite read_int_space.
  change (String " " ("on " +:+ ?x)) with (" on " +:+ x).
  rewrite strip_prefix_append.
  by rewrite strip_suffix_append.
Qed.

Lemma parse_greeting_empty : parse_greeting "" = None.
Proof. reflexivity. Qed.

(** ** Output of a process and of a launch *)

Lemma stdout_main_context (c : mpi_context) (w : world) :
  mpi_env w = Some c →
  stdout (main w).2
  = stdout w +:+ greeting_line (ctx_rank c) (ctx_size c) (ctx_name c)
    +:+ newline +:+ newline.
Proof.
  intros Hc. by rewrite (main_context c w Hc).
Qed.

Lemma output_of_process (n : nat) (host : nat → string) (o : nat → os_state)
    (r : nat) :
  output_of (process_world n host o r)
  = greeting_line (Z.of_nat r) (Z.of_nat n) (host r) +:+ newline +:+ newline.
Proof.
  exact (stdout_main_context
           (MpiContext (Z.of_nat n) (Z.of_nat r) (host r))
           (process_world n host o r) eq_refl).
Qed.

Lemma printed_greeting (r s : Z) (h rest : string) :
  has_LF h = false →
  printed (greeting_line r s h +:+ newline +:+ newline +:+ rest)
  = (r, s, h) :: printed rest.
Proof.
  intros H. unfold printed.
  rewrite (lines_line _ _ (greeting_line_no_LF r s h H)).
  change (newline +:+ rest) with ("" +:+ newline +:+ rest).
  rewrite (lines_line "" rest eq_refl).
  cbn [omap list_omap]. by rewrite parse_greeting_line, parse_greeting_empty.
Qed.

Lemma printed_launch_output (n : nat) (host : nat → string)
    (o : nat → os_state) (order : list nat) :
  (∀ r, has_LF (host r) = false) →
  printed (launch_output n host o order)
  = (λ r, (Z.of_nat r, Z.of_nat n, host r)) <$> order.
Proof.
  intros Hhost. unfold launch_output.
  induction order as [|r order IH]; [done|].
  cbn [map foldr fmap list_fmap]. rewrite output_of_process, !append_assoc.
  by rewrite (printed_greeting _ _ _ _ (Hhost r)), IH.
Qed.


(** ** The claims *)

(** C1 (as stated, refuted).  With rank 2, size 4 and host [node7] the output
    of a fresh process is not the greeting line followed by a single line
    feed. *)
Lemma single_newline_counterexample :
  stdout (main (initial_world (Some (MpiContext 4 2 "node7")) empty_os)).2
  ≠ greeting_line 2 4 "node7" +:+ newline.
Proof. vm_compute. discriminate. Qed.

(** C1 (as amended).  For every run in which the runtime answers rank R, size
    S and host H, the script ends without an exception and appends to standard
    output exactly the line [Hello, World! I am process R of S on H.] followed
    by two line feeds, and nothing else. *)
Theorem greeting_written (w : world) (c : mpi_context) :
  mpi_env w = Some c →
  (main w).1 = Ok tt ∧
  stdout (main w).2
  = stdout w +:+ greeting_line (ctx_rank c) (ctx_size c) (ctx_name c)
    +:+ newline +:+ newline.
Proof.
  intros Hc. split; [by rewrite (main_context c w Hc)|].
  by apply stdout_main_context.
Qed.

Lemma greeting_written_witness :
  mpi_env (initial_world (Some (MpiContext 4 2 "node7")) empty_os)
  = Some (MpiContext 4 2 "node7") ∧
  ((main (initial_world (Some (MpiContext 4 2 "node7")) empty_os)).1 = Ok tt ∧
   stdout (main (initial_world (Some (MpiContext 4 2 "node7")) empty_os)).2
   = "" +:+ greeting_line 2 4 "node7" +:+ newline +:+ newline).
Proof.
  split; [reflexivity|].
  apply (greeting_written
           (initial_world (Some (MpiContext 4 2 "node7")) empty_os)
           (MpiContext 4 2 "node7")).
  reflexivity.
Defined.

(** C2 (as stated, refuted).  Launched alone on host [node0], the whole output
    is not just the line [Hello, World! I am process 0 of 1 on node0.] with
    its line feed. *)
Lemma single_process_counterexample :
  output_of (process_world 1 (λ _, "node0") (λ _, empty_os) 0)
  ≠ "Hello, World! I am process 0 of 1 on node0." +:+ newline.
Proof. vm_compute. discriminate. Qed.

(** C2 (as amended).  Launched with N = 1, the whole standard output of the
    one process is the line [Hello, World! I am process 0 of 1 on <hostname>.]
    followed by two line feeds. *)
Theorem single_process_output (host : nat → string) (o : nat → os_state) :
  output_of (process_world 1 host o 0)
  = "Hello, World! I am process 0 of 1 on " +:+ host 0%nat +:+ "."
    +:+ newline +:+ newline.
Proof.
  rewrite output_of_process. unfold greeting_line.
  rewrite !append_assoc. reflexivity.
Qed.

(** C3.  In a process of a launch, at every point of its run (after any
    number [k] of statements), the rank and the size held in the globals
    satisfy 0 <= rank < size whenever the size is positive, and so do the rank
    and size of every greeting found on its standard output (read back line
    by line, for a host name free of line feeds). *)
Theorem rank_below_size (n : nat) (host : nat → string) (o : nat → os_state)
    (r k : nat) :
  (r < n)%nat →
  (∀ rv sv : Z,
     globals (run_prefix k (process_world n host o r)).2 !! "rank"
       = Some (PInt rv) →
     globals (run_prefix k (process_world n host o r)).2 !! "size"
       = Some (PInt sv) →
     0 < sv → 0 ≤ rv < sv) ∧
  (has_LF (host r) = false →
   ∀ g, g ∈ printed (stdout (run_prefix k (process_world n host o r)).2) →
     0 < printed_size g → 0 ≤ printed_rank g < printed_size g).
Proof.
  intros Hr.
  rewrite (run_prefix_context
             (MpiContext (Z.of_nat n) (Z.of_nat r) (host r)) k
             (process_world n host o r) eq_refl).
  cbn [snd]. split.
  - intros rv sv Hrank Hsize _.
    destruct (decide (4 ≤ k)%nat) as [Hk|Hk].
    + rewrite globals_after_rank in Hrank by done.
      rewrite globals_after_size in Hsize by lia.
      simpl in Hrank, Hsize. simplify_eq. lia.
    + do 4 (destruct k as [|k]; [by vm_compute in Hrank|]). lia.
  - intros Hhost g Hg _. rewrite stdout_world_after in Hg.
    destruct (decide (k < 6)%nat) as [Hk|Hk]; [by apply elem_of_nil in Hg|].
    cbn [ctx_rank ctx_size ctx_name process_world initial_world stdout] in Hg.
    rewrite append_nil_l in Hg.
    rewrite <- (append_nil_r newline) in Hg at 2.
    rewrite (printed_greeting _ _ _ "" Hhost) in Hg.
    apply list_elem_of_singleton in Hg as ->.
    unfold printed_rank, printed_size. simpl. lia.
Qed.

Lemma rank_below_size_witness :
  (2 < 4)%nat ∧ has_LF "node7" = false ∧
  (∀ g, g ∈ printed (stdout (run_prefix 6 (process_world 4 (λ _, "node7")
                                             (λ _, empty_os) 2)).2) →
     0 < printed_size g → 0 ≤ printed_rank g < printed_size g).
Proof.
  split; [lia|]. split; [reflexivity|].
  apply (proj2 (rank_below_size 4 (λ _, "node7") (λ _, empty_os) 2 6
                  ltac:(lia))).
  reflexivity.
Defined.

(** C4.  In a launch of N processes (any N, so every N >= 1), where the process of index r (r from 0
    to N - 1) runs the script with rank r and size N, and host names hold no
    line feed: whatever the order in which the processes' outputs reach the
    shared stream, its lines hold exactly N greetings, the printed ranks are
    0, 1, ..., N - 1 in some order with no duplicate, and every greeting
    reports size N. *)
Theorem launch_prints_each_rank_once (n : nat) (host : nat → string)
    (o : nat → os_state) (order : list nat) :
  (∀ r, has_LF (host r) = false) →
  order ≡ₚ seq 0 n →
  length (printed (launch_output n host o order)) = n ∧
  printed_rank <$> printed (launch_output n host o order)
    ≡ₚ Z.of_nat <$> seq 0 n ∧
  NoDup (printed_rank <$> printed (launch_output n host o order)) ∧
  Forall (λ g, printed_size g = Z.of_nat n)
         (printed (launch_output n host o order)).
Proof.
  intros Hhost Hperm.
  rewrite (printed_launch_output n host o order Hhost).
  assert (Hranks : printed_rank <$>
            ((λ r, (Z.of_nat r, Z.of_nat n, host r)) <$> order)
          = Z.of_nat <$> order).
  { rewrite <- list_fmap_compose. by apply list_fmap_ext. }
  rewrite Hranks. split_and!.
  - by rewrite length_fmap, Hperm, length_seq.
  - by rewrite Hperm.
  - apply (NoDup_fmap_2 _). rewrite Hperm. apply NoDup_seq.
  - apply Forall_fmap, Forall_forall. by intros r _.
Qed.

Lemma launch_prints_each_rank_once_witness :
  (∀ r : nat, has_LF ((λ _, "node7") r) = false) ∧
  [2; 0; 1]%nat ≡ₚ seq 0 3 ∧
  length (printed (launch_output 3 (λ _, "node7") (λ _, empty_os)
                     [2; 0; 1]%nat)) = 3%nat.
Proof.
  assert (Hperm : [2; 0; 1]%nat ≡ₚ seq 0 3).
  { exact (perm_trans (perm_swap 0%nat 2%nat [1%nat])
                      (perm_skip 0%nat (perm_swap 1%nat 2%nat []))). }
  split; [intros r; reflexivity|]. split; [exact Hperm|].
  apply (launch_prints_each_rank_once 3 (λ _, "node7") (λ _, empty_os)
           [2; 0; 1]%nat); [intros r; reflexivity|exact Hperm].
Defined.

(** C5.  With a context the script ends with exit status 0.  When the context
    cannot be established the process ends with a non-zero exit status, and
    nothing at all is written to standard output: the world is left as it
    was, so a fresh process prints no greeting. *)
Theorem exit_status_of_run (w : world) :
  (∀ c, mpi_env w = Some c → exit_status (main w).1 = 0) ∧
  (mpi_env w = None →
   exit_status (main w).1 ≠ 0 ∧ (main w).2 = w ∧
   stdout (main w).2 = stdout w ∧
   (stdout w = "" → printed (output_of w) = [])).
Proof.
  split.
  - intros c Hc. by rewrite (main_context c w Hc).
  - intros Hn. unfold output_of. rewrite (main_no_context w Hn). simpl.
    split_and!; [done..|]. by intros ->.
Qed.

Lemma exit_status_of_run_witness :
  (mpi_env (initial_world (Some (MpiContext 1 0 "node0")) empty_os)
   = Some (MpiContext 1 0 "node0") ∧
   exit_status
     (main (initial_world (Some (MpiContext 1 0 "node0")) empty_os)).1 = 0) ∧
  (mpi_env (initial_world None empty_os) = None ∧
   exit_status (main (initial_world None empty_os)).1 ≠ 0).
Proof.
  split.
  - split; [reflexivity|].
    apply (proj1 (exit_status_of_run
                    (initial_world (Some (MpiContext 1 0 "node0")) empty_os))
                 (MpiContext 1 0 "node0")).
    reflexivity.
  - split; [reflexivity|].
    exact (proj1 (proj2 (exit_status_of_run (initial_world None empty_os))
                        eq_refl)).
Defined.




(** C8.  Each of size, rank and host name is asked of the runtime exactly
    once, in that order: the run adds exactly three entries to the query log.
    Once bound, each global keeps the value its query returned for the rest
    of the run, and the greeting printed carries exactly those values. *)
Theorem values_fetched_once (w : world) (c : mpi_context) :
  mpi_env w = Some c →
  api_calls (main w).2
  = api_calls w ++ [Call_Get_size (ctx_size c); Call_Get_rank (ctx_rank c);
                    Call_Get_processor_name (ctx_name c)] ∧
  (∀ k, (3 ≤ k)%nat →
     globals (run_prefix k w).2 !! "size" = Some (PInt (ctx_size c))) ∧
  (∀ k, (4 ≤ k)%nat →
     globals (run_prefix k w).2 !! "rank" = Some (PInt (ctx_rank c))) ∧
  (∀ k, (5 ≤ k)%nat →
     globals (run_prefix k w).2 !! "name" = Some (PStr (ctx_name c))) ∧
  stdout (main w).2
  = stdout w +:+ greeting_line (ctx_rank c) (ctx_size c) (ctx_name c)
    +:+ newline +:+ newline.
Proof.
  intros Hc. split_and!.
  - rewrite (main_context c w Hc). apply api_calls_world_after.
  - intros k Hk. rewrite (run_prefix_context c k w Hc).
    by apply globals_after_size.
  - intros k Hk. rewrite (run_prefix_context c k w Hc).
    by apply globals_after_rank.
  - intros k Hk. rewrite (run_prefix_context c k w Hc).
    by apply globals_after_name.
  - by apply stdout_main_context.
Qed.

Lemma values_fetched_once_witness :
  mpi_env (initial_world (Some (MpiContext 4 2 "node7")) empty_os)
  = Some (MpiContext 4 2 "node7") ∧
  api_calls (main (initial_world (Some (MpiContext 4 2 "node7")) empty_os)).2
  = [] ++ [Call_Get_size 4; Call_Get_rank 2; Call_Get_processor_name "node7"].
Proof.
  split; [reflexivity|].
  apply (values_fetched_once
           (initial_world (Some (MpiContext 4 2 "node7")) empty_os)
           (MpiContext 4 2 "node7")).
  reflexivity.
Defined.

(** C9.  The text written ends with two line feeds in a row: the formatted
    string already ends in the line feed of the format string, and [print]
    adds its own; on a fresh standard output, with a host name free of line
    feeds, the output is the greeting line and then an empty line. *)
Theorem output_ends_with_two_newlines (w : world) (c : mpi_context) :
  mpi_env w = Some c →
  (∃ body,
     py_format greeting_format
       [PInt (ctx_rank c); PInt (ctx_size c); PStr (ctx_name c)]
     = Ok (body +:+ String LF "") ∧
     stdout (main w).2 = stdout w +:+ body +:+ String LF (String LF "")) ∧
  (stdout w = "" → has_LF (ctx_name c) = false →
   lines (stdout (main w).2)
   = [greeting_line (ctx_rank c) (ctx_size c) (ctx_name c); ""]).
Proof.
  intros Hc. split.
  - exists (greeting_line (ctx_rank c) (ctx_size c) (ctx_name c)).
    split; [apply py_format_greeting|].
    by rewrite (stdout_main_context c w Hc).
  - intros Hout Hname. rewrite (stdout_main_context c w Hc), Hout.
    rewrite append_nil_l.
    rewrite (lines_line _ _ (greeting_line_no_LF _ _ _ Hname)).
    reflexivity.
Qed.

Lemma output_ends_with_two_newlines_witness :
  mpi_env (initial_world (Some (MpiContext 4 2 "node7")) empty_os)
  = Some (MpiContext 4 2 "node7") ∧
  stdout (initial_world (Some (MpiContext 4 2 "node7")) empty_os) = "" ∧
  has_LF "node7" = false ∧
  lines (stdout (main (initial_world (Some (MpiContext 4 2 "node7"))
                         empty_os)).2)
  = [greeting_line 2 4 "node7"; ""].
Proof.
  split_and!; [reflexivity..|].
  apply (proj2 (output_ends_with_two_newlines
                  (initial_world (Some (MpiContext 4 2 "node7")) empty_os)
                  (MpiContext 4 2 "node7") eq_refl));
    reflexivity.
Defined.



Example format_negative_rank_empty_host :
  py_format greeting_format [PInt (-3); PInt 0; PStr ""]
  = Ok ("Hello, World! I am process -3 of 0 on ." +:+ newline).
Proof. reflexivity. Qed.

(** ** Further properties of the script *)

Lemma append_inj_r (s t u : string) : s +:+ u = t +:+ u → s = t.
Proof.
  intros H. apply (f_equal (strip_suffix u)) in H.
  rewrite !strip_suffix_append in H. by injection H.
Qed.

Lemma greeting_line_inj (r s r' s' : Z) (h h' : string) :
  greeting_line r s h = greeting_line r' s' h' → r = r' ∧ s = s' ∧ h = h'.
Proof.
  intros H. apply (f_equal parse_greeting) in H.
  rewrite !parse_greeting_line in H. by simplify_eq.
Qed.

(** Without a context every non-empty prefix of the script stops at the
    import. *)
Lemma run_prefix_no_context (k : nat) (w : world) :
  mpi_env w = None → (1 ≤ k)%nat → run_prefix k w = (Raise ImportError, w).
Proof.
  intros Hn Hk. destruct k as [|k]; [lia|].
  unfold run_prefix, hello. cbn [take run_script].
  apply bind_Raise. unfold stmt_import. apply bind_Raise.
  unfold import_MPI. by rewrite Hn.
Qed.

Lemma api_calls_world_after_prefix (c : mpi_context) (k : nat) (w : world) :
  api_calls (world_after c k w)
  = api_calls w ++ take (k - 2) [Call_Get_size (ctx_size c);
                                 Call_Get_rank (ctx_rank c);
                                 Call_Get_processor_name (ctx_name c)].
Proof.
  destruct (decide (k ≤ 6)%nat) as [Hk|Hk].
  - do 7 (destruct k as [|k];
          [simpl; by rewrite ?app_nil_r, <- ?(assoc_L (++))|]).
    lia.
  - rewrite world_after_ge by lia. rewrite take_ge by (simpl; lia).
    apply api_calls_world_after.
Qed.

(** [%s] takes a value of any kind and puts in its text. *)
Lemma py_format_greeting_any (r s : Z) (v : pyval) :
  py_format greeting_format [PInt r; PInt s; v]
  = Ok (greeting_line r s (py_str v) +:+ newline).
Proof.
  unfold greeting_line. rewrite !append_assoc. reflexivity.
Qed.

(** A run that raised is compared with the world it started from. *)
Ltac raised_unchanged :=
  let H := fresh "H" in
  intros H; unfold raise, ret in H; simpl in H; by simplify_eq.

(** The outcome of the [print] statement in any world. *)
Ltac print_statement_cases w :=
  unfold stmt_print, bind, load_name, format_op, lift, print;
  destruct (globals w !! "rank") as [[?|?| |]|];
  destruct (globals w !! "size") as [[?|?| |]|];
  destruct (globals w !! "name") as [?|];
  try reflexivity.

(** X1.  The script binds exactly the global names MPI, comm, size, rank and
    name.  Every other global is left as it was by every run, failed or not;
    after a run with a context the five names hold the module, the
    communicator and the three answers of the runtime, and the names bound
    are those five added to the ones bound before. *)
Theorem globals_after_run (w : world) :
  (∀ x : string,
     x ∉ ["MPI"; "comm"; "size"; "rank"; "name"] →
     globals (main w).2 !! x = globals w !! x) ∧
  (∀ c, mpi_env w = Some c →
     globals (main w).2 !! "MPI" = Some PModuleMPI ∧
     globals (main w).2 !! "comm" = Some PComm ∧
     globals (main w).2 !! "size" = Some (PInt (ctx_size c)) ∧
     globals (main w).2 !! "rank" = Some (PInt (ctx_rank c)) ∧
     globals (main w).2 !! "name" = Some (PStr (ctx_name c)) ∧
     dom (globals (main w).2)
     = {["MPI"; "comm"; "size"; "rank"; "name"]} ∪ dom (globals w)).
Proof.
  split.
  - intros x Hx. destruct (mpi_env w) as [c|] eqn:Hc.
    + rewrite (main_context c w Hc). simpl.
      rewrite !lookup_insert_ne; [done|by intros <-; apply Hx; repeat constructor..].
    + by rewrite (main_no_context w Hc).
  - intros c Hc. rewrite (main_context c w Hc). cbn [snd].
    split_and!.
    + apply globals_after_MPI; lia.
    + apply globals_after_comm; lia.
    + apply globals_after_size; lia.
    + apply globals_after_rank; lia.
    + apply globals_after_name; lia.
    + simpl. rewrite !dom_insert_L, !(assoc_L (∪)). by f_equal.
Qed.

Lemma globals_after_run_witness :
  ("argv" ∉ ["MPI"; "comm"; "size"; "rank"; "name"]) ∧
  globals (main (set_global "argv" (PStr "hello.py")
                   (initial_world (Some (MpiContext 4 2 "node7"))
                      empty_os))).2 !! "argv"
  = globals (set_global "argv" (PStr "hello.py")
               (initial_world (Some (MpiContext 4 2 "node7"))
                  empty_os)) !! "argv".
Proof.
  assert (H : "argv" ∉ ["MPI"; "comm"; "size"; "rank"; "name"]).
  { intros Hin. repeat (apply elem_of_cons in Hin as [Hin|Hin];
                        [discriminate Hin|]).
    by apply elem_of_nil in Hin. }
  split; [exact H|].
  exact (proj1 (globals_after_run
                  (set_global "argv" (PStr "hello.py")
                     (initial_world (Some (MpiContext 4 2 "node7"))
                        empty_os))) "argv" H).
Defined.

(** X2.  The text a run writes determines what the runtime answered: two runs
    with a context that start from the same standard output and end with the
    same standard output were given the same rank, the same size and the same
    host name, whatever characters the host names hold. *)
Theorem output_determines_answers (w1 w2 : world) (c1 c2 : mpi_context) :
  mpi_env w1 = Some c1 →
  mpi_env w2 = Some c2 →
  stdout w1 = stdout w2 →
  stdout (main w1).2 = stdout (main w2).2 →
  c1 = c2.
Proof.
  intros H1 H2 Hout H.
  rewrite (stdout_main_context c1 w1 H1), (stdout_main_context c2 w2 H2) in H.
  rewrite Hout in H. apply (inj (String.append _)) in H.
  apply append_inj_r, greeting_line_inj in H as (Hr & Hs & Hn).
  destruct c1, c2. simpl in *. by subst.
Qed.

Lemma output_determines_answers_witness :
  mpi_env (initial_world (Some (MpiContext 4 2 "node7")) empty_os)
  = Some (MpiContext 4 2 "node7") ∧
  mpi_env (initial_world (Some (MpiContext 4 2 "node7"))
             (OsState ∅ ∅ ["hello.py"] []))
  = Some (MpiContext 4 2 "node7") ∧
  MpiContext 4 2 "node7" = MpiContext 4 2 "node7".
Proof.
  split; [reflexivity|]. split; [reflexivity|].
  apply (output_determines_answers
           (initial_world (Some (MpiContext 4 2 "node7")) empty_os)
           (initial_world (Some (MpiContext 4 2 "node7"))
              (OsState ∅ ∅ ["hello.py"] [])));
    reflexivity.
Defined.

(** X3.  Two different processes of a launch never write the same text, even
    on the same host: their greetings differ in the rank. *)
Theorem processes_write_different_text (n : nat) (host : nat → string)
    (o : nat → os_state) (r1 r2 : nat) :
  r1 ≠ r2 →
  output_of (process_world n host o r1) ≠ output_of (process_world n host o r2).
Proof.
  intros Hne H. rewrite !output_of_process in H.
  apply append_inj_r, greeting_line_inj in H as (Hr & _ & _). lia.
Qed.

Lemma processes_write_different_text_witness :
  (0%nat ≠ 1%nat) ∧
  (output_of (process_world 2 (λ _, "node7") (λ _, empty_os) 0)
   ≠ output_of (process_world 2 (λ _, "node7") (λ _, empty_os) 1)).
Proof.
  split; [lia|].
  apply (processes_write_different_text 2 (λ _, "node7") (λ _, empty_os) 0 1).
  lia.
Defined.


(** X5.  No statement of the script leaves a partial effect behind: when a
    statement raises, in any world, the globals, standard output, query log
    and environment are as they were before it. *)
Theorem failed_statement_changes_nothing (st : M unit) (w w' : world)
    (e : exn) :
  st ∈ hello →
  st w = (Raise e, w') →
  w' = w.
Proof.
  intros Hs. unfold hello in Hs.
  repeat (apply elem_of_cons in Hs as [->|Hs]);
    [..|by apply elem_of_nil in Hs].
  - unfold stmt_import, bind, import_MPI, store_name.
    destruct (mpi_env w); raised_unchanged.
  - unfold stmt_comm, bind, load_name, attr_COMM_WORLD, store_name.
    destruct (globals w !! "MPI") as [[]|]; raised_unchanged.
  - unfold stmt_size, bind, load_name, Get_size, query, store_name.
    destruct (globals w !! "comm") as [[]|]; try raised_unchanged.
    destruct (mpi_env w); raised_unchanged.
  - unfold stmt_rank, bind, load_name, Get_rank, query, store_name.
    destruct (globals w !! "comm") as [[]|]; try raised_unchanged.
    destruct (mpi_env w); raised_unchanged.
  - unfold stmt_name, bind, load_name, Get_processor_name, query, store_name.
    destruct (globals w !! "MPI") as [[]|]; try raised_unchanged.
    destruct (mpi_env w); raised_unchanged.
  - print_statement_cases w; rewrite ?py_format_greeting_any;
      raised_unchanged.
Qed.

Lemma failed_statement_changes_nothing_witness :
  stmt_print ∈ hello ∧
  stmt_print (initial_world (Some (MpiContext 4 2 "node7")) empty_os)
  = (Raise NameError, initial_world (Some (MpiContext 4 2 "node7")) empty_os) ∧
  initial_world (Some (MpiContext 4 2 "node7")) empty_os
  = initial_world (Some (MpiContext 4 2 "node7")) empty_os.
Proof.
  assert (Hin : stmt_print ∈ hello) by (unfold hello; repeat constructor).
  split; [exact Hin|]. split; [reflexivity|].
  apply (failed_statement_changes_nothing stmt_print
           (initial_world (Some (MpiContext 4 2 "node7")) empty_os)
           (initial_world (Some (MpiContext 4 2 "node7")) empty_os)
           NameError Hin).
  reflexivity.
Defined.

(** X6.  The course of a run with a context: no prefix of the script raises;
    the size, the rank and the host name are asked by the third, fourth and
    fifth statement, one query each, in that order; and standard output is
    untouched until the sixth statement, so the greeting is written only
    after all three queries were answered. *)
Theorem queries_then_greeting (w : world) (c : mpi_context) (k : nat) :
  mpi_env w = Some c →
  (run_prefix k w).1 = Ok tt ∧
  api_calls (run_prefix k w).2
  = api_calls w ++ take (k - 2) [Call_Get_size (ctx_size c);
                                 Call_Get_rank (ctx_rank c);
                                 Call_Get_processor_name (ctx_name c)] ∧
  stdout (run_prefix k w).2
  = (if decide (k < 6)%nat then stdout w
     else stdout w +:+ greeting_line (ctx_rank c) (ctx_size c) (ctx_name c)
          +:+ newline +:+ newline).
Proof.
  intros Hc. rewrite (run_prefix_context c k w Hc). cbn [fst snd].
  split_and!; [done|apply api_calls_world_after_prefix
              |apply stdout_world_after].
Qed.

Lemma queries_then_greeting_witness :
  mpi_env (initial_world (Some (MpiContext 4 2 "node7")) empty_os)
  = Some (MpiContext 4 2 "node7") ∧
  api_calls (run_prefix 4 (initial_world (Some (MpiContext 4 2 "node7"))
                             empty_os)).2
  = [] ++ take (4 - 2) [Call_Get_size 4; Call_Get_rank 2;
                        Call_Get_processor_name "node7"].
Proof.
  split; [reflexivity|].
  apply (queries_then_greeting
           (initial_world (Some (MpiContext 4 2 "node7")) empty_os)
           (MpiContext 4 2 "node7") 4).
  reflexivity.
Defined.

(** X7.  Running the script a second time in the same interpreter succeeds
    again, writes the same greeting a second time, asks the three queries
    again and leaves the globals exactly as the first run left them. *)
Theorem second_run (w : world) (c : mpi_context) :
  mpi_env w = Some c →
  (bind main (λ _, main) w).1 = Ok tt ∧
  stdout (bind main (λ _, main) w).2
  = stdout (main w).2 +:+ greeting_line (ctx_rank c) (ctx_size c) (ctx_name c)
    +:+ newline +:+ newline ∧
  globals (bind main (λ _, main) w).2 = globals (main w).2 ∧
  api_calls (bind main (λ _, main) w).2
  = api_calls (main w).2 ++ [Call_Get_size (ctx_size c);
                             Call_Get_rank (ctx_rank c);
                             Call_Get_processor_name (ctx_name c)].
Proof.
  intros Hc.
  assert (Hc' : mpi_env (world_after c 6 w) = Some c)
    by (by rewrite mpi_env_world_after).
  rewrite (bind_Ok _ _ _ _ _ (main_context c w Hc)).
  rewrite (main_context c w Hc), (main_context c _ Hc'). cbn [fst snd].
  split_and!; [done|by rewrite stdout_world_after| |].
  - simpl. apply map_eq. intros x.
    rewrite !lookup_insert. by repeat case_decide.
  - apply api_calls_world_after.
Qed.

Lemma second_run_witness :
  mpi_env (initial_world (Some (MpiContext 4 2 "node7")) empty_os)
  = Some (MpiContext 4 2 "node7") ∧
  globals (bind main (λ _, main)
             (initial_world (Some (MpiContext 4 2 "node7")) empty_os)).2
  = globals (main (initial_world (Some (MpiContext 4 2 "node7"))
                     empty_os)).2.
Proof.
  split; [reflexivity|].
  apply (second_run (initial_world (Some (MpiContext 4 2 "node7")) empty_os)
           (MpiContext 4 2 "node7")).
  reflexivity.
Defined.

(** X8.  The lines of the shared output of a launch, for host names free of
    line feeds and any order of arrival: each process contributes its
    greeting line followed by one empty line, so the stream holds twice as
    many lines as processes wrote to it. *)
Theorem launch_output_lines (n : nat) (host : nat → string)
    (o : nat → os_state) (order : list nat) :
  (∀ r, has_LF (host r) = false) →
  lines (launch_output n host o order)
  = flat_map (λ r, [greeting_line (Z.of_nat r) (Z.of_nat n) (host r); ""])
             order ∧
  length (lines (launch_output n host o order)) = (2 * length order)%nat.
Proof.
  intros Hhost.
  assert (Hlines : lines (launch_output n host o order)
            = flat_map (λ r, [greeting_line (Z.of_nat r) (Z.of_nat n) (host r);
                              ""]) order).
  { unfold launch_output. induction order as [|r order IH]; [done|].
    cbn [map foldr flat_map]. rewrite output_of_process, !append_assoc.
    rewrite (lines_line _ _ (greeting_line_no_LF _ _ _ (Hhost r))).
    change (newline +:+ ?t) with ("" +:+ newline +:+ t).
    rewrite (lines_line "" _ eq_refl). by rewrite IH. }
  split; [done|]. rewrite Hlines.
  clear. induction order as [|r order IH]; [done|].
  cbn [flat_map]. rewrite length_app, IH. simpl. lia.
Qed.

Lemma launch_output_lines_witness :
  (∀ r : nat, has_LF ((λ _, "node7") r) = false) ∧
  length (lines (launch_output 3 (λ _, "node7") (λ _, empty_os)
                   [2; 0; 1]%nat))
  = (2 * length [2; 0; 1]%nat)%nat.
Proof.
  split; [intros r; reflexivity|].
  apply (launch_output_lines 3 (λ _, "node7") (λ _, empty_os) [2; 0; 1]%nat).
  intros r; reflexivity.
Defined.
